(** * spatial_tools.plotting._graph: plotting for graph functions

    A shallow embedding of [src/spatial_tools/plotting/_graph.py] and the
    properties of its three entry points:
    [plot_cluster_centrality_scores], [plot_cluster_interactions] and
    [plot_ripley_k].

    The module only reads an [AnnData] container and issues calls to
    seaborn/matplotlib.  It is embedded as programs of a small
    state-and-exception monad [py]: the state is the container together with
    two logs, one of the container accesses and one of the plotting calls, in
    the order the interpreter performs them.  The plotting libraries are
    external: a plotting call is recorded with its arguments and returns. *)

From Stdlib Require Import ZArith Ascii.
From stdpp Require Import base strings gmap list sorting pretty.

Set Warnings "-register-all,-clear-no-such-hyp".

(** ** Python values *)

Module Py.

(** A cell of a table.  Numbers stand for the stored numeric entries, which
    this module never inspects. *)
Inductive cell :=
  | CNum (z : Z)
  | CStr (s : string).

(** A [pandas.DataFrame]: a row index and named columns, in order. *)
Record DataFrame := mkDataFrame {
  df_index : list cell;
  df_columns : list (string * list cell)
}.

(** The values that can sit in [adata.uns] or be passed as [df]. [VSeq] is a
    Python list or tuple, [VArray2] and [VArray1] are numpy arrays. *)
Inductive pyval :=
  | VNone
  | VInt (z : Z)
  | VStr (s : string)
  | VSeq (items : list pyval)
  | VArray2 (rows : list (list Z))
  | VArray1 (xs : list Z)
  | VFrame (df : DataFrame).

(** Exceptions: the class and the argument the exception was built with. *)
Inductive exn_class :=
  | ValueError
  | KeyError
  | Warning
  | TypeError
  | AttributeError
  | IndexError.

Record exn := mkExn { exn_cls : exn_class; exn_arg : string }.

Global Instance exn_class_eq_dec : EqDecision exn_class.
Proof. solve_decision. Defined.

(** [except cls:] catches the instances of [cls]; none of the classes above
    is a subclass of another one of them ([KeyError] and [IndexError] derive
    from [LookupError], [Warning] from [Exception]). *)
Definition isinstance (e : exn) (cls : exn_class) : bool :=
  bool_decide (exn_cls e = cls).

Definition LF : string := String "010"%char "".
Definition TAB : string := String "009"%char "".

(** The one-character strings of a string, as iteration over a [str] yields. *)
Fixpoint chars (s : string) : list string :=
  match s with
  | EmptyString => []
  | String c s' => String c "" :: chars s'
  end.

End Py.
Export Py.

(** ** The container and the world *)

(** [adata.uns] is a string-keyed dictionary; [adata.obs] holds the
    per-observation categorical columns, a label per observation. *)
Record AnnData := mkAnnData {
  uns : gmap string pyval;
  obs : gmap string (list string)
}.

(** Container accesses, as the source writes them. *)
Inductive access :=
  | UnsKeys
  | UnsGet (key : string)
  | ObsGet (key : string).

(** Calls into matplotlib and seaborn, with the arguments the source passes. *)
Inductive plot_call :=
  | PltSubplot (nrows ncols index : Z)
  | SnsStripplot (data : DataFrame) (y x : string) (size : Z)
      (orient : string) (linewidth : Z)
  | SpineSetVisible (side : string) (visible : bool)
  | YaxisGrid (b : bool)
  | TickParams (kw : list (string * bool))
  | PltYlabel (label : option string)
  | PltFigure
  | FigAddSubplot (code : Z)
  | AxMatshow (m : pyval)
  | FigColorbar
  | PltXticks (ticks : list nat) (labels : pyval) (size : string)
  | PltYticks (ticks : list nat) (labels : pyval) (size : string)
  | SnsLineplot (x y hue : string) (hue_order : option (list string))
      (data : pyval) (palette : option (list pyval)).

Record world := mkWorld {
  adata : AnnData;
  reads : list access;
  drawn : list plot_call
}.

(** ** The monad *)

Inductive outcome (A : Type) :=
  | Returned (a : A)
  | Raised (e : exn).
Arguments Returned {A} a.
Arguments Raised {A} e.

Definition py (A : Type) : Type := world → outcome A * world.

Global Instance py_ret : MRet py := λ A a w, (Returned a, w).

Global Instance py_bind : MBind py := λ A B f m w,
  match m w with
  | (Returned a, w') => f a w'
  | (Raised e, w') => (Raised e, w')
  end.

Definition raise {A} (e : exn) : py A := λ w, (Raised e, w).

(** [try: body except cls: handler] *)
Definition try_except {A} (body : py A) (cls : exn_class) (handler : py A)
  : py A := λ w,
  match body w with
  | (Returned a, w') => (Returned a, w')
  | (Raised e, w') =>
      if isinstance e cls then handler w' else (Raised e, w')
  end.

Definition log_read (a : access) : py unit := λ w,
  (Returned (), mkWorld (adata w) (reads w ++ [a]) (drawn w)).

(** A call into matplotlib or seaborn: the call is recorded, with its
    arguments, and taken to return.  What the library does with the
    arguments, rejecting them included, is outside this model: the log
    [drawn] tells which calls the module makes and in which order, and
    [Returned] that the code of the module itself raised nothing. *)
Definition draw (c : plot_call) : py unit := λ w,
  (Returned (), mkWorld (adata w) (reads w) (drawn w ++ [c])).

Definition get_adata : py AnnData := λ w, (Returned (adata w), w).

(** [for x in xs: body] *)
Fixpoint for_each {A} (xs : list A) (body : A → py unit) : py unit :=
  match xs with
  | [] => mret ()
  | x :: xs' => body x;; for_each xs' body
  end.

(** A call on a container with nothing read or drawn yet. *)
Definition call {A} (m : py A) (a : AnnData) : outcome A * world :=
  m (mkWorld a [] []).

(** ** Container primitives *)

(** [adata.uns_keys()] *)
Definition uns_keys : py (list string) :=
  log_read UnsKeys;;
  a ← get_adata;
  mret ((map_to_list (uns a)).*1).

(** [adata.uns[key]]: a dictionary lookup, [KeyError(key)] when absent. *)
Definition uns_getitem (key : string) : py pyval :=
  log_read (UnsGet key);;
  a ← get_adata;
  match uns a !! key with
  | Some v => mret v
  | None => raise (mkExn KeyError key)
  end.

(** [adata.obs[key]]: a column lookup, [KeyError(key)] when absent. *)
Definition obs_getitem (key : string) : py (list string) :=
  log_read (ObsGet key);;
  a ← get_adata;
  match obs a !! key with
  | Some col => mret col
  | None => raise (mkExn KeyError key)
  end.

(** ** Operations on values *)

(** [DataFrame.rename(columns=mapping)]: a new frame whose column names are
    looked up in [mapping]; names outside it, the row index and the cells
    stay.  The receiver is not changed ([inplace] is left at its default). *)
Definition rename_label (mapping : list (string * string)) (name : string)
  : string :=
  match list_find (λ kv, kv.1 = name) mapping with
  | Some (_, kv) => kv.2
  | None => name
  end.

Definition rename_columns (mapping : list (string * string)) (d : DataFrame)
  : DataFrame :=
  mkDataFrame (df_index d)
    (map (λ c, (rename_label mapping c.1, c.2)) (df_columns d)).

(** [v.rename(columns=mapping)] on a value of any type: only a frame has the
    method. *)
Definition py_rename (v : pyval) (mapping : list (string * string))
  : py DataFrame :=
  match v with
  | VFrame d => mret (rename_columns mapping d)
  | _ => raise (mkExn AttributeError "object has no attribute 'rename'")
  end.

Definition index_error : exn := mkExn IndexError "index out of range".

(** [v[i]] for a non-negative integer literal [i]. A frame is indexed by
    column label, and no column of this model is labelled by an integer. *)
Definition py_getitem (v : pyval) (i : nat) : py pyval :=
  match v with
  | VSeq items =>
      match items !! i with
      | Some x => mret x
      | None => raise index_error
      end
  | VStr s =>
      match chars s !! i with
      | Some c => mret (VStr c)
      | None => raise index_error
      end
  | VArray2 rows =>
      match rows !! i with
      | Some r => mret (VArray1 r)
      | None => raise index_error
      end
  | VArray1 xs =>
      match xs !! i with
      | Some x => mret (VInt x)
      | None => raise index_error
      end
  | VFrame _ => raise (mkExn KeyError (pretty i))
  | VNone | VInt _ => raise (mkExn TypeError "object is not subscriptable")
  end.

(** [len(v)] *)
Definition py_len (v : pyval) : py nat :=
  match v with
  | VSeq items => mret (length items)
  | VStr s => mret (length (chars s))
  | VArray2 rows => mret (length rows)
  | VArray1 xs => mret (length xs)
  | VFrame d => mret (length (df_index d))
  | VNone | VInt _ => raise (mkExn TypeError "object has no len()")
  end.

(** The items that iterating over [v] yields, if [v] is iterable. *)
Definition iter_items (v : pyval) : option (list pyval) :=
  match v with
  | VSeq items => Some items
  | VStr s => Some (VStr <$> chars s)
  | VArray2 rows => Some (VArray1 <$> rows)
  | VArray1 xs => Some (VInt <$> xs)
  | VFrame d => Some ((λ c, VStr c.1) <$> df_columns d)
  | VNone | VInt _ => None
  end.

(** [[c for c in v]] *)
Definition py_list (v : pyval) : py (list pyval) :=
  match iter_items v with
  | Some items => mret items
  | None => raise (mkExn TypeError "object is not iterable")
  end.

(** [Series.unique()]: the distinct values in order of first appearance. *)
Fixpoint unique_from (seen : list string) (col : list string) : list string :=
  match col with
  | [] => []
  | x :: col' =>
      if decide (x ∈ seen) then unique_from seen col'
      else x :: unique_from (x :: seen) col'
  end.

Definition unique (col : list string) : list string := unique_from [] col.

(** [np.sort] on labels: ascending in the order of the strings. *)
Definition label_le (a b : string) : Prop := String.leb a b = true.

Global Instance label_le_dec : RelDecision label_le.
Proof. intros a b. unfold label_le. apply _. Defined.

Definition np_sort (labels : list string) : list string :=
  merge_sort label_le labels.

(** ** plot_cluster_centrality_scores *)

Definition default_centrality_scores_key : string :=
  "cluster_centrality_scores".

Definition centrality_not_recognized (centrality_scores_key : string)
  : string :=
  "centrality_scores_key " +:+ centrality_scores_key +:+
  " not recognized. Choose a different key or run first " +:+
  "nhood.cluster_centrality_scores(adata) on your AnnData object.".

(** The [columns=] dictionary of the [rename] call. *)
Definition centrality_rename : list (string * string) :=
  [ ("degree centrality", "degree" +:+ LF +:+ "centrality");
    ("clustering coefficient", "clustering" +:+ LF +:+ "coefficient");
    ("closeness centrality", "closeness" +:+ LF +:+ "centrality");
    ("betweenness centrality", "betweenness" +:+ LF +:+ "centrality") ].

Definition centrality_values : list string :=
  [ "degree" +:+ LF +:+ "centrality";
    "clustering" +:+ LF +:+ "coefficient";
    "closeness" +:+ LF +:+ "centrality";
    "betweenness" +:+ LF +:+ "centrality" ].

(** The body of the [for i, value in zip([1, 2, 3, 4], values)] loop. *)
Definition centrality_panel (df : DataFrame) (iv : Z * string) : py unit :=
  let '(i, value) := iv in
  draw (PltSubplot 1 4 i);;
  draw (SnsStripplot df "cluster" value 10 "h" 1);;
  draw (SpineSetVisible "right" false);;
  draw (SpineSetVisible "top" false);;
  draw (SpineSetVisible "bottom" false);;
  draw (SpineSetVisible "left" false);;
  draw (YaxisGrid true);;
  draw (TickParams [("bottom", false); ("left", false);
                    ("right", false); ("top", false)]);;
  if bool_decide (i > 1)%Z then
    draw (PltYlabel None);;
    draw (TickParams [("labelleft", false)])
  else mret ().

Definition plot_cluster_centrality_scores (centrality_scores_key : string)
  : py unit :=
  keys ← uns_keys;
  df ← (if bool_decide (centrality_scores_key ∈ keys)
        then uns_getitem centrality_scores_key
        else raise (mkExn ValueError
                      (centrality_not_recognized centrality_scores_key)));
  df ← py_rename df centrality_rename;
  for_each (zip [1; 2; 3; 4]%Z centrality_values) (centrality_panel df).

(** ** plot_cluster_interactions *)

Definition default_cluster_interactions_key : string :=
  "cluster_interactions".

Definition interactions_not_recognized (cluster_interactions_key : string)
  : string :=
  "cluster_interactions_key " +:+ cluster_interactions_key +:+
  " not recognized. Choose a different key or run first " +:+
  "nhood.cluster_interactions(adata) on your AnnData object.".

Definition plot_cluster_interactions (cluster_interactions_key : string)
  : py unit :=
  keys ← uns_keys;
  interaction_matrix ←
    (if bool_decide (cluster_interactions_key ∈ keys)
     then uns_getitem cluster_interactions_key
     else raise (mkExn ValueError
                   (interactions_not_recognized cluster_interactions_key)));
  draw PltFigure;;
  draw (FigAddSubplot 111);;
  m ← py_getitem interaction_matrix 0;
  draw (AxMatshow m);;
  draw FigColorbar;;
  labels ← py_getitem interaction_matrix 1;
  n ← py_len labels;
  labels' ← py_getitem interaction_matrix 1;
  draw (PltXticks (seq 0 n) labels' "small");;
  labels ← py_getitem interaction_matrix 1;
  n ← py_len labels;
  labels' ← py_getitem interaction_matrix 1;
  draw (PltYticks (seq 0 n) labels' "small").

(** ** plot_ripley_k *)

Definition no_color_palette (cluster_key : string) : string :=
  TAB +:+ "here is no color palette in adata_uns for " +:+ cluster_key +:+ LF.

Definition ripley_not_used (cluster_key : string) : string :=
  "\looks like `riply_k_" +:+ cluster_key +:+ "` was not used" +:+ LF +:+ LF
  +:+ "\is not present in adata.uns," +:+ LF
  +:+ TAB +:+ "please rerun ripley_k or pass" +:+ LF
  +:+ TAB +:+ "a dataframe".

(** The [if df is None: ... else: ...] statement: the table to plot, the
    [hue_order] and the [palette]. *)
Definition ripley_source (cluster_key : string) (df : pyval)
  : py (pyval * option (list string) * option (list pyval)) :=
  match df with
  | VNone =>
      try_except
        (df ← uns_getitem ("ripley_k_" +:+ cluster_key);
         '(hue_order, palette) ←
           try_except
             (col ← obs_getitem cluster_key;
              let hue_order := np_sort (unique col) in
              colors ← uns_getitem (cluster_key +:+ "_colors");
              palette ← py_list colors;
              mret (hue_order, palette))
             ValueError
             (raise (mkExn Warning (no_color_palette cluster_key)));
         mret (df, Some hue_order, Some palette))
        ValueError
        (raise (mkExn ValueError (ripley_not_used cluster_key)))
  | _ => mret (df, None, None)
  end.

Definition plot_ripley_k (cluster_key : string) (df : pyval) : py unit :=
  '(df, hue_order, palette) ← ripley_source cluster_key df;
  draw PltFigure;;
  draw (FigAddSubplot 111);;
  draw (SnsLineplot "distance" "ripley_k" "leiden" hue_order df palette).

(** ** Predicates used in the statements *)

(** [sub] occurs in [s]. *)
Definition contains (s sub : string) : Prop :=
  ∃ before after, s = before +:+ sub +:+ after.

Fixpoint starts_with (s sub : string) {struct sub} : bool :=
  match sub, s with
  | EmptyString, _ => true
  | String c sub', String d s' => bool_decide (c = d) && starts_with s' sub'
  | String _ _, EmptyString => false
  end.

(** The executable form of [contains]. *)
Fixpoint containsb (s sub : string) : bool :=
  starts_with s sub ||
  match s with
  | EmptyString => false
  | String _ s' => containsb s' sub
  end.

(** A program keeps the container: whatever the logs and the outcome, the
    container of the final world is the one of the initial world. *)
Definition keeps_adata {A} (m : py A) : Prop :=
  ∀ w, adata (m w).2 = adata w.

(** The calls of [sns.lineplot] among the plotting calls. *)
Definition is_lineplot (c : plot_call) : bool :=
  match c with
  | SnsLineplot _ _ _ _ _ _ => true
  | _ => false
  end.

Definition lineplot_calls (calls : list plot_call) : list plot_call :=
  List.filter is_lineplot calls.

(** ** Sample containers *)

Definition ripley_table : DataFrame :=
  mkDataFrame [CNum 0; CNum 1; CNum 2; CNum 3]
    [ ("leiden", [CStr "0"; CStr "0"; CStr "1"; CStr "1"]);
      ("distance", [CNum 0; CNum 5; CNum 0; CNum 5]);
      ("ripley_k", [CNum 0; CNum 12; CNum 0; CNum 9]) ].

Definition adata_without_colors : AnnData :=
  mkAnnData {[ "ripley_k_leiden" := VFrame ripley_table ]}
            {[ "leiden" := ["1"; "0"; "1"] ]}.

Definition adata_with_colors : AnnData :=
  mkAnnData
    (<[ "leiden_colors" := VSeq [VStr "#1f77b4"; VStr "#ff7f0e"] ]>
       (uns adata_without_colors))
    (obs adata_without_colors).

Definition centrality_table : DataFrame :=
  mkDataFrame [CNum 0; CNum 1; CNum 2]
    [ ("cluster", [CStr "0"; CStr "1"; CStr "2"]);
      ("degree centrality", [CNum 2; CNum 1; CNum 1]);
      ("clustering coefficient", [CNum 0; CNum 1; CNum 1]);
      ("closeness centrality", [CNum 1; CNum 0; CNum 0]);
      ("betweenness centrality", [CNum 1; CNum 0; CNum 0]) ].

Definition adata_centrality : AnnData :=
  mkAnnData {[ "cluster_centrality_scores" := VFrame centrality_table ]} ∅.

Definition adata_interactions : AnnData :=
  mkAnnData
    {[ "cluster_interactions" :=
         VSeq [VArray2 [[4; 1]; [1; 6]]%Z; VSeq [VStr "0"; VStr "1"]] ]} ∅.

(** A 2×3 array stored with a single label. *)
Definition adata_mismatched : AnnData :=
  mkAnnData
    {[ "cluster_interactions" :=
         VSeq [VArray2 [[4; 1; 0]; [1; 6; 2]]%Z; VSeq [VStr "0"]] ]} ∅.

(** Ripley results and colours stored for a key that labels no column. *)
Definition adata_other_key : AnnData :=
  mkAnnData
    {[ "ripley_k_louvain" := VFrame ripley_table;
       "louvain_colors" := VSeq [VStr "#1f77b4"; VStr "#ff7f0e"] ]}
    {[ "leiden" := ["1"; "0"; "1"] ]}.

(** The matrix stored without its labels. *)
Definition adata_matrix_only : AnnData :=
  mkAnnData
    {[ "cluster_interactions" := VSeq [VArray2 [[4; 1]; [1; 6]]%Z] ]} ∅.

(** The labels stored as a numpy array of cluster numbers, and a third
    item after them. *)
Definition adata_array_labels : AnnData :=
  mkAnnData
    {[ "cluster_interactions" :=
         VSeq [VArray2 [[4; 1]; [1; 6]]%Z; VArray1 [7; 9]%Z; VStr "note"] ]}
    ∅.

(** The interactions of [adata_interactions] among other entries. *)
Definition adata_interactions_crowded : AnnData :=
  mkAnnData
    (<[ "ripley_k_leiden" := VFrame ripley_table ]> (uns adata_interactions))
    {[ "leiden" := ["1"; "0"; "1"] ]}.

(** * Properties *)

(** ** Strings *)

Lemma starts_with_app sub after : starts_with (sub +:+ after) sub = true.
Proof.
  induction sub as [|c sub IH]; simpl; [done|].
  rewrite bool_decide_eq_true_2 by done. exact IH.
Qed.

Lemma containsb_complete s sub : contains s sub → containsb s sub = true.
Proof.
  intros (before & after & ->).
  induction before as [|c before IH]; simpl.
  - pose proof (starts_with_app sub after) as H.
    destruct (sub +:+ after); simpl; by rewrite H.
  - rewrite IH. apply orb_true_r.
Qed.

Lemma contains_middle before sub after :
  contains (before +:+ sub +:+ after) sub.
Proof. by exists before, after. Qed.

(** ** Ordering of labels *)

Lemma compare_refl s : String.compare s s = Eq.
Proof.
  induction s as [|c s IH]; simpl; [done|].
  unfold Ascii.compare. by rewrite N.compare_refl.
Qed.

Lemma compare_not_Gt_trans a b c :
  String.compare a b ≠ Gt → String.compare b c ≠ Gt →
  String.compare a c ≠ Gt.
Proof.
  revert b c. induction a as [|x a IH]; intros [|y b] [|z c]; simpl; try done.
  unfold Ascii.compare.
  destruct (N.compare_spec (N_of_ascii x) (N_of_ascii y)) as [Hxy|Hxy|Hxy];
    destruct (N.compare_spec (N_of_ascii y) (N_of_ascii z)) as [Hyz|Hyz|Hyz];
    try done; intros Hab Hbc.
  - rewrite Hxy, Hyz, N.compare_refl. by apply (IH b).
  - rewrite Hxy. by rewrite (proj2 (N.compare_lt_iff _ _) Hyz).
  - rewrite <- Hyz. by rewrite (proj2 (N.compare_lt_iff _ _) Hxy).
  - by rewrite (proj2 (N.compare_lt_iff _ _) (N.lt_trans _ _ _ Hxy Hyz)).
Qed.

Global Instance label_le_refl : Reflexive label_le.
Proof. intros s. unfold label_le, String.leb. by rewrite compare_refl. Qed.

Global Instance label_le_trans : Transitive label_le.
Proof.
  intros a b c. unfold label_le, String.leb.
  pose proof (compare_not_Gt_trans a b c) as H.
  destruct (String.compare a b), (String.compare b c),
    (String.compare a c); try done; (by exfalso; apply H).
Qed.

Global Instance label_le_antisym : AntiSymm (=) label_le.
Proof. intros a b. apply String.leb_antisym. Qed.

Global Instance label_le_total : Total label_le.
Proof. intros a b. apply String.leb_total. Qed.

(** ** unique and np_sort *)

Lemma elem_of_unique_from seen col x :
  x ∈ unique_from seen col ↔ x ∈ col ∧ x ∉ seen.
Proof.
  revert seen. induction col as [|y col IH]; intros seen; simpl.
  - set_solver.
  - destruct (decide (y ∈ seen)) as [Hin|Hnin].
    + rewrite IH. set_solver.
    + rewrite elem_of_cons, IH, not_elem_of_cons, elem_of_cons.
      destruct (decide (x = y)) as [->|Hne]; naive_solver.
Qed.

Lemma NoDup_unique_from seen col : NoDup (unique_from seen col).
Proof.
  revert seen. induction col as [|y col IH]; intros seen; simpl.
  - constructor.
  - destruct (decide (y ∈ seen)); [apply IH|].
    constructor; [|apply IH].
    rewrite elem_of_unique_from. set_solver.
Qed.

Lemma elem_of_unique col x : x ∈ unique col ↔ x ∈ col.
Proof. unfold unique. rewrite elem_of_unique_from. set_solver. Qed.

Lemma NoDup_unique col : NoDup (unique col).
Proof. apply NoDup_unique_from. Qed.

Lemma np_sort_Permutation labels : np_sort labels ≡ₚ labels.
Proof. apply merge_sort_Permutation. Qed.

Lemma np_sort_ascending labels : StronglySorted label_le (np_sort labels).
Proof. apply StronglySorted_merge_sort; apply _. Qed.

(** The display order computed from a label column: ascending, without
    repetition, and with exactly the labels of the column. *)
Lemma sorted_unique_spec col :
  StronglySorted label_le (np_sort (unique col)) ∧
  NoDup (np_sort (unique col)) ∧
  ∀ x, x ∈ np_sort (unique col) ↔ x ∈ col.
Proof.
  split; [apply np_sort_ascending|]. split.
  - rewrite np_sort_Permutation. apply NoDup_unique.
  - intros x. rewrite np_sort_Permutation. apply elem_of_unique.
Qed.

(** ** The container is only read *)

Section frame.
Context {A B : Type}.

Lemma keeps_adata_ret (a : A) : keeps_adata (mret a).
Proof. by intros w. Qed.

Lemma keeps_adata_raise (e : exn) : keeps_adata (@raise A e).
Proof. by intros w. Qed.

Lemma keeps_adata_bind (m : py A) (f : A → py B) :
  keeps_adata m → (∀ a, keeps_adata (f a)) → keeps_adata (m ≫= f).
Proof.
  intros Hm Hf w. unfold mbind, py_bind.
  specialize (Hm w). destruct (m w) as [[a|e] w']; simpl in *; [|done].
  by rewrite Hf.
Qed.

Lemma keeps_adata_try_except (body handler : py A) cls :
  keeps_adata body → keeps_adata handler →
  keeps_adata (try_except body cls handler).
Proof.
  intros Hb Hh w. unfold try_except.
  specialize (Hb w). destruct (body w) as [[a|e] w']; simpl in *; [done|].
  destruct (isinstance e cls); [|done]. by rewrite Hh.
Qed.

Lemma keeps_adata_for_each (xs : list A) (body : A → py unit) :
  (∀ x, keeps_adata (body x)) → keeps_adata (for_each xs body).
Proof.
  intros Hbody. induction xs as [|x xs IH]; simpl.
  - by intros w.
  - intros w. unfold mbind, py_bind.
    specialize (Hbody x w).
    destruct (body x w) as [[[]|e] w']; simpl in *; [|done].
    by rewrite IH.
Qed.
End frame.

Lemma keeps_adata_log_read a : keeps_adata (log_read a).
Proof. by intros w. Qed.

Lemma keeps_adata_draw c : keeps_adata (draw c).
Proof. by intros w. Qed.

Lemma keeps_adata_get_adata : keeps_adata get_adata.
Proof. by intros w. Qed.

Create HintDb frame discriminated.
#[global] Hint Resolve keeps_adata_ret keeps_adata_raise keeps_adata_log_read
  keeps_adata_draw keeps_adata_get_adata : frame.

(** Decompose a program along its binds, handlers and branches. *)
Ltac frame_step :=
  first
    [ apply keeps_adata_bind; [|intros ?]
    | apply keeps_adata_try_except
    | apply keeps_adata_for_each; intros ?
    | solve [auto with frame]
    | case_match
    | case_bool_decide ].

Ltac frame_solve := repeat frame_step.

Lemma keeps_adata_uns_keys : keeps_adata uns_keys.
Proof. unfold uns_keys. frame_solve. Qed.

Lemma keeps_adata_uns_getitem key : keeps_adata (uns_getitem key).
Proof. unfold uns_getitem. frame_solve. Qed.

Lemma keeps_adata_obs_getitem key : keeps_adata (obs_getitem key).
Proof. unfold obs_getitem. frame_solve. Qed.

Lemma keeps_adata_py_rename v mapping : keeps_adata (py_rename v mapping).
Proof. unfold py_rename. frame_solve. Qed.

Lemma keeps_adata_py_getitem v i : keeps_adata (py_getitem v i).
Proof. unfold py_getitem. frame_solve. Qed.

Lemma keeps_adata_py_len v : keeps_adata (py_len v).
Proof. unfold py_len. frame_solve. Qed.

Lemma keeps_adata_py_list v : keeps_adata (py_list v).
Proof. unfold py_list. frame_solve. Qed.

#[global] Hint Resolve keeps_adata_uns_keys keeps_adata_uns_getitem
  keeps_adata_obs_getitem keeps_adata_py_rename keeps_adata_py_getitem
  keeps_adata_py_len keeps_adata_py_list : frame.

Lemma keeps_adata_centrality_panel df iv : keeps_adata (centrality_panel df iv).
Proof. unfold centrality_panel. frame_solve. Qed.

Lemma keeps_adata_centrality key :
  keeps_adata (plot_cluster_centrality_scores key).
Proof.
  pose proof keeps_adata_centrality_panel.
  unfold plot_cluster_centrality_scores. frame_solve.
Qed.

Lemma keeps_adata_interactions key :
  keeps_adata (plot_cluster_interactions key).
Proof. unfold plot_cluster_interactions. frame_solve. Qed.

Lemma keeps_adata_ripley_source cluster_key df :
  keeps_adata (ripley_source cluster_key df).
Proof. unfold ripley_source. frame_solve. Qed.

Lemma keeps_adata_ripley cluster_key df :
  keeps_adata (plot_ripley_k cluster_key df).
Proof.
  unfold plot_ripley_k. apply keeps_adata_bind.
  - apply keeps_adata_ripley_source.
  - intros [[t hue_order] palette]. frame_solve.
Qed.

(** ** Evaluating calls *)

Lemma elem_of_uns_keys (m : gmap string pyval) (key : string) :
  key ∈ (map_to_list m).*1 ↔ is_Some (m !! key).
Proof.
  rewrite list_elem_of_fmap. split.
  - intros ([k v] & -> & Hkv). apply elem_of_map_to_list in Hkv. by exists v.
  - intros [v Hv]. exists (key, v). split; [done|].
    by apply elem_of_map_to_list.
Qed.

Lemma in_uns_keys_present (m : gmap string pyval) key v :
  m !! key = Some v → bool_decide (key ∈ (map_to_list m).*1) = true.
Proof. intros H. apply bool_decide_eq_true_2, elem_of_uns_keys. by exists v. Qed.

Lemma in_uns_keys_absent (m : gmap string pyval) key :
  m !! key = None → bool_decide (key ∈ (map_to_list m).*1) = false.
Proof.
  intros H. apply bool_decide_eq_false_2. rewrite elem_of_uns_keys, H.
  by intros [? ?].
Qed.

(** Unfold the monad on a call. *)
Ltac py_unfold :=
  unfold call, uns_keys, uns_getitem, obs_getitem, get_adata, log_read, draw,
    raise, try_except, isinstance, mbind, py_bind, mret, py_ret; simpl.

Lemma centrality_key_absent a key :
  uns a !! key = None →
  call (plot_cluster_centrality_scores key) a =
    (Raised (mkExn ValueError (centrality_not_recognized key)),
     mkWorld a [UnsKeys] []).
Proof.
  intros H. unfold plot_cluster_centrality_scores. py_unfold.
  by rewrite (in_uns_keys_absent _ _ H).
Qed.

Lemma interactions_key_absent a key :
  uns a !! key = None →
  call (plot_cluster_interactions key) a =
    (Raised (mkExn ValueError (interactions_not_recognized key)),
     mkWorld a [UnsKeys] []).
Proof.
  intros H. unfold plot_cluster_interactions. py_unfold.
  by rewrite (in_uns_keys_absent _ _ H).
Qed.

Lemma ripley_key_absent a cluster_key :
  uns a !! ("ripley_k_" +:+ cluster_key) = None →
  call (plot_ripley_k cluster_key VNone) a =
    (Raised (mkExn KeyError ("ripley_k_" +:+ cluster_key)),
     mkWorld a [UnsGet ("ripley_k_" +:+ cluster_key)] []).
Proof.
  intros H. unfold plot_ripley_k, ripley_source. py_unfold.
  by rewrite H.
Qed.

Lemma ripley_explicit a cluster_key df :
  df ≠ VNone →
  call (plot_ripley_k cluster_key df) a =
    (Returned (),
     mkWorld a []
       [PltFigure; FigAddSubplot 111;
        SnsLineplot "distance" "ripley_k" "leiden" None df None]).
Proof. intros H. by destruct df. Qed.

Lemma ripley_obs_absent a cluster_key t :
  uns a !! ("ripley_k_" +:+ cluster_key) = Some t →
  obs a !! cluster_key = None →
  call (plot_ripley_k cluster_key VNone) a =
    (Raised (mkExn KeyError cluster_key),
     mkWorld a [UnsGet ("ripley_k_" +:+ cluster_key); ObsGet cluster_key] []).
Proof.
  intros Ht Hcol. unfold plot_ripley_k, ripley_source. py_unfold.
  rewrite Ht; simpl. by rewrite Hcol.
Qed.

Lemma ripley_colors_absent a cluster_key t col :
  uns a !! ("ripley_k_" +:+ cluster_key) = Some t →
  obs a !! cluster_key = Some col →
  uns a !! (cluster_key +:+ "_colors") = None →
  call (plot_ripley_k cluster_key VNone) a =
    (Raised (mkExn KeyError (cluster_key +:+ "_colors")),
     mkWorld a
       [UnsGet ("ripley_k_" +:+ cluster_key); ObsGet cluster_key;
        UnsGet (cluster_key +:+ "_colors")] []).
Proof.
  intros Ht Hcol Hcolors. unfold plot_ripley_k, ripley_source. py_unfold.
  rewrite Ht; simpl. rewrite Hcol; simpl. by rewrite Hcolors.
Qed.

Lemma py_list_iter_items v w :
  py_list v w =
    match iter_items v with
    | Some items => (Returned items, w)
    | None => (Raised (mkExn TypeError "object is not iterable"), w)
    end.
Proof. unfold py_list. by destruct (iter_items v). Qed.

Lemma ripley_derived a cluster_key t col colors palette :
  uns a !! ("ripley_k_" +:+ cluster_key) = Some t →
  obs a !! cluster_key = Some col →
  uns a !! (cluster_key +:+ "_colors") = Some colors →
  iter_items colors = Some palette →
  call (plot_ripley_k cluster_key VNone) a =
    (Returned (),
     mkWorld a
       [UnsGet ("ripley_k_" +:+ cluster_key); ObsGet cluster_key;
        UnsGet (cluster_key +:+ "_colors")]
       [PltFigure; FigAddSubplot 111;
        SnsLineplot "distance" "ripley_k" "leiden"
          (Some (np_sort (unique col))) t (Some palette)]).
Proof.
  intros Ht Hcol Hcolors Hpal. unfold plot_ripley_k, ripley_source. py_unfold.
  rewrite Ht; simpl. rewrite Hcol; simpl. rewrite Hcolors; simpl.
  by rewrite py_list_iter_items, Hpal.
Qed.

Lemma ripley_colors_not_iterable a cluster_key t col colors :
  uns a !! ("ripley_k_" +:+ cluster_key) = Some t →
  obs a !! cluster_key = Some col →
  uns a !! (cluster_key +:+ "_colors") = Some colors →
  iter_items colors = None →
  call (plot_ripley_k cluster_key VNone) a =
    (Raised (mkExn TypeError "object is not iterable"),
     mkWorld a
       [UnsGet ("ripley_k_" +:+ cluster_key); ObsGet cluster_key;
        UnsGet (cluster_key +:+ "_colors")] []).
Proof.
  intros Ht Hcol Hcolors Hpal. unfold plot_ripley_k, ripley_source. py_unfold.
  rewrite Ht; simpl. rewrite Hcol; simpl. rewrite Hcolors; simpl.
  by rewrite py_list_iter_items, Hpal.
Qed.

Lemma interactions_pair a key m labels :
  uns a !! key = Some (VSeq [m; VSeq labels]) →
  call (plot_cluster_interactions key) a =
    (Returned (),
     mkWorld a [UnsKeys; UnsGet key]
       [PltFigure; FigAddSubplot 111; AxMatshow m; FigColorbar;
        PltXticks (seq 0 (length labels)) (VSeq labels) "small";
        PltYticks (seq 0 (length labels)) (VSeq labels) "small"]).
Proof.
  intros H. unfold plot_cluster_interactions. py_unfold.
  rewrite (in_uns_keys_present _ _ _ H); simpl. by rewrite H.
Qed.

Lemma centrality_not_frame a key v :
  uns a !! key = Some v →
  (∀ d, v ≠ VFrame d) →
  call (plot_cluster_centrality_scores key) a =
    (Raised (mkExn AttributeError "object has no attribute 'rename'"),
     mkWorld a [UnsKeys; UnsGet key] []).
Proof.
  intros H Hv. unfold plot_cluster_centrality_scores. py_unfold.
  rewrite (in_uns_keys_present _ _ _ H); simpl. rewrite H.
  destruct v; try done. by destruct (Hv df).
Qed.

Lemma rename_label_other mapping name :
  name ∉ mapping.*1 → rename_label mapping name = name.
Proof.
  intros Hnot. unfold rename_label.
  destruct (list_find _ mapping) as [[i [k v]]|] eqn:E; [|done].
  apply list_find_Some in E as (Hi & Hk & _). simpl in Hk. subst k.
  destruct Hnot. apply list_elem_of_fmap. exists (name, v). split; [done|].
  by eapply list_elem_of_lookup_2.
Qed.

Lemma rename_columns_shape mapping d :
  df_index (rename_columns mapping d) = df_index d ∧
  (df_columns (rename_columns mapping d)).*2 = (df_columns d).*2 ∧
  (df_columns (rename_columns mapping d)).*1 =
    rename_label mapping <$> (df_columns d).*1.
Proof.
  unfold rename_columns; simpl. split; [done|].
  rewrite <- !list_fmap_compose. split; by apply list_fmap_ext.
Qed.

(** ** The statement that selects the table *)

Lemma source_explicit a cluster_key df :
  df ≠ VNone →
  call (ripley_source cluster_key df) a =
    (Returned (df, None, None), mkWorld a [] []).
Proof. intros H. by destruct df. Qed.

Lemma source_key_absent a cluster_key :
  uns a !! ("ripley_k_" +:+ cluster_key) = None →
  call (ripley_source cluster_key VNone) a =
    (Raised (mkExn KeyError ("ripley_k_" +:+ cluster_key)),
     mkWorld a [UnsGet ("ripley_k_" +:+ cluster_key)] []).
Proof. intros H. unfold ripley_source. py_unfold. by rewrite H. Qed.

Lemma source_obs_absent a cluster_key t :
  uns a !! ("ripley_k_" +:+ cluster_key) = Some t →
  obs a !! cluster_key = None →
  call (ripley_source cluster_key VNone) a =
    (Raised (mkExn KeyError cluster_key),
     mkWorld a [UnsGet ("ripley_k_" +:+ cluster_key); ObsGet cluster_key] []).
Proof.
  intros Ht Hcol. unfold ripley_source. py_unfold.
  rewrite Ht; simpl. by rewrite Hcol.
Qed.

Lemma source_colors_absent a cluster_key t col :
  uns a !! ("ripley_k_" +:+ cluster_key) = Some t →
  obs a !! cluster_key = Some col →
  uns a !! (cluster_key +:+ "_colors") = None →
  call (ripley_source cluster_key VNone) a =
    (Raised (mkExn KeyError (cluster_key +:+ "_colors")),
     mkWorld a
       [UnsGet ("ripley_k_" +:+ cluster_key); ObsGet cluster_key;
        UnsGet (cluster_key +:+ "_colors")] []).
Proof.
  intros Ht Hcol Hcolors. unfold ripley_source. py_unfold.
  rewrite Ht; simpl. rewrite Hcol; simpl. by rewrite Hcolors.
Qed.

Lemma source_colors_not_iterable a cluster_key t col colors :
  uns a !! ("ripley_k_" +:+ cluster_key) = Some t →
  obs a !! cluster_key = Some col →
  uns a !! (cluster_key +:+ "_colors") = Some colors →
  iter_items colors = None →
  call (ripley_source cluster_key VNone) a =
    (Raised (mkExn TypeError "object is not iterable"),
     mkWorld a
       [UnsGet ("ripley_k_" +:+ cluster_key); ObsGet cluster_key;
        UnsGet (cluster_key +:+ "_colors")] []).
Proof.
  intros Ht Hcol Hcolors Hpal. unfold ripley_source. py_unfold.
  rewrite Ht; simpl. rewrite Hcol; simpl. rewrite Hcolors; simpl.
  by rewrite py_list_iter_items, Hpal.
Qed.

Lemma source_derived a cluster_key t col colors palette :
  uns a !! ("ripley_k_" +:+ cluster_key) = Some t →
  obs a !! cluster_key = Some col →
  uns a !! (cluster_key +:+ "_colors") = Some colors →
  iter_items colors = Some palette →
  call (ripley_source cluster_key VNone) a =
    (Returned (t, Some (np_sort (unique col)), Some palette),
     mkWorld a
       [UnsGet ("ripley_k_" +:+ cluster_key); ObsGet cluster_key;
        UnsGet (cluster_key +:+ "_colors")] []).
Proof.
  intros Ht Hcol Hcolors Hpal. unfold ripley_source. py_unfold.
  rewrite Ht; simpl. rewrite Hcol; simpl. rewrite Hcolors; simpl.
  by rewrite py_list_iter_items, Hpal.
Qed.

(** How the statement can raise, with the accesses made until then. *)
Lemma source_raised a cluster_key df e w :
  call (ripley_source cluster_key df) a = (Raised e, w) →
  df = VNone ∧
  (e = mkExn KeyError ("ripley_k_" +:+ cluster_key) ∧
     reads w = [UnsGet ("ripley_k_" +:+ cluster_key)] ∨
   e = mkExn KeyError cluster_key ∧
     reads w = [UnsGet ("ripley_k_" +:+ cluster_key); ObsGet cluster_key] ∨
   e = mkExn KeyError (cluster_key +:+ "_colors") ∧
     reads w =
       [UnsGet ("ripley_k_" +:+ cluster_key); ObsGet cluster_key;
        UnsGet (cluster_key +:+ "_colors")] ∨
   e = mkExn TypeError "object is not iterable" ∧
     reads w =
       [UnsGet ("ripley_k_" +:+ cluster_key); ObsGet cluster_key;
        UnsGet (cluster_key +:+ "_colors")]).
Proof.
  assert (df = VNone ∨ df ≠ VNone) as [->|Hdf] by (destruct df; auto).
  2: { by rewrite source_explicit. }
  destruct (uns a !! ("ripley_k_" +:+ cluster_key)) as [t|] eqn:Ht.
  2: { rewrite source_key_absent by done. intros [= <- <-]. auto. }
  destruct (obs a !! cluster_key) as [col|] eqn:Hcol.
  2: { erewrite source_obs_absent by done. intros [= <- <-]. auto. }
  destruct (uns a !! (cluster_key +:+ "_colors")) as [colors|] eqn:Hcolors.
  2: { erewrite source_colors_absent by done. intros [= <- <-]. auto 6. }
  destruct (iter_items colors) as [palette|] eqn:Hpal.
  - by erewrite source_derived.
  - erewrite source_colors_not_iterable by done. intros [= <- <-]. auto 8.
Qed.

(** * The three entry points *)

(** ** Missing keys *)

(** C1. With the key absent, [plot_cluster_centrality_scores] and
    [plot_cluster_interactions] raise the [ValueError] whose message contains
    the supplied key.  [plot_ripley_k] without a table, with the derived key
    absent, does not: the dictionary lookup raises [KeyError], which the
    [except ValueError] clause around it does not catch, so the [ValueError]
    written in the handler is never raised. Nothing is drawn in any of the
    three. *)
Theorem missing_key_errors a key :
  uns a !! key = None →
  uns a !! ("ripley_k_" +:+ key) = None →
  (∃ msg w,
     call (plot_cluster_centrality_scores key) a
       = (Raised (mkExn ValueError msg), w) ∧
     contains msg key ∧ drawn w = []) ∧
  (∃ msg w,
     call (plot_cluster_interactions key) a
       = (Raised (mkExn ValueError msg), w) ∧
     contains msg key ∧ drawn w = []) ∧
  (∃ w,
     call (plot_ripley_k key VNone) a
       = (Raised (mkExn KeyError ("ripley_k_" +:+ key)), w) ∧
     drawn w = []).
Proof.
  intros Hkey Hderived. repeat split.
  - eexists _, _. rewrite centrality_key_absent by done.
    repeat split. apply contains_middle.
  - eexists _, _. rewrite interactions_key_absent by done.
    repeat split. apply contains_middle.
  - eexists. rewrite ripley_key_absent by done. done.
Qed.

Lemma missing_key_errors_witness :
  (∃ msg w,
     call (plot_cluster_centrality_scores "leiden") (mkAnnData ∅ ∅)
       = (Raised (mkExn ValueError msg), w) ∧
     contains msg "leiden" ∧ drawn w = []) ∧
  (∃ msg w,
     call (plot_cluster_interactions "leiden") (mkAnnData ∅ ∅)
       = (Raised (mkExn ValueError msg), w) ∧
     contains msg "leiden" ∧ drawn w = []) ∧
  (∃ w,
     call (plot_ripley_k "leiden" VNone) (mkAnnData ∅ ∅)
       = (Raised (mkExn KeyError "ripley_k_leiden"), w) ∧
     drawn w = []).
Proof.
  apply (missing_key_errors (mkAnnData ∅ ∅) "leiden"); reflexivity.
Defined.

(** C3. [plot_ripley_k] without a table and with the derived key absent
    raises [KeyError] with the derived key as its argument, not the
    [ValueError] of the handler: no message tells the caller to rerun
    [ripley_k] or to pass a dataframe. *)
Theorem ripley_missing_result_is_KeyError a cluster_key :
  uns a !! ("ripley_k_" +:+ cluster_key) = None →
  call (plot_ripley_k cluster_key VNone) a =
    (Raised (mkExn KeyError ("ripley_k_" +:+ cluster_key)),
     mkWorld a [UnsGet ("ripley_k_" +:+ cluster_key)] []) ∧
  (call (plot_ripley_k cluster_key VNone) a).1
    ≠ Raised (mkExn ValueError (ripley_not_used cluster_key)).
Proof.
  intros H. rewrite ripley_key_absent by done. done.
Qed.

Lemma ripley_missing_result_is_KeyError_witness :
  call (plot_ripley_k "leiden" VNone) (mkAnnData ∅ ∅) =
    (Raised (mkExn KeyError "ripley_k_leiden"),
     mkWorld (mkAnnData ∅ ∅) [UnsGet "ripley_k_leiden"] []) ∧
  (call (plot_ripley_k "leiden" VNone) (mkAnnData ∅ ∅)).1
    ≠ Raised (mkExn ValueError (ripley_not_used "leiden")).
Proof.
  apply (ripley_missing_result_is_KeyError (mkAnnData ∅ ∅) "leiden").
  reflexivity.
Defined.

(** The message of the handler that is never reached spells the key
    [riply_k_...]: it would not name the derived key either. *)
Example ripley_not_used_spelling :
  containsb (ripley_not_used "leiden") "riply_k_leiden" = true ∧
  ¬ contains (ripley_not_used "leiden") "ripley_k_leiden".
Proof.
  split; [reflexivity|].
  intros H. apply containsb_complete in H. vm_compute in H. discriminate.
Qed.

(** Whatever the container and the arguments, the statement that selects
    the table, where the two handlers are, raises neither a [ValueError] nor
    a [Warning]: both handlers are unreachable. *)
Lemma ripley_handlers_unreachable a cluster_key df e w :
  call (ripley_source cluster_key df) a = (Raised e, w) →
  exn_cls e ≠ ValueError ∧ exn_cls e ≠ Warning.
Proof.
  intros H. apply source_raised in H as (_ & H).
  destruct H as [[-> _]|[[-> _]|[[-> _]|[-> _]]]]; done.
Qed.

(** ** The palette *)

(** C2. [plot_ripley_k] without a table, with the derived key and the label
    column present and the colour key absent, raises [KeyError] for the
    colour key after the three lookups: nothing is drawn, and no warning is
    issued. *)
Theorem ripley_missing_palette_raises a cluster_key t col :
  uns a !! ("ripley_k_" +:+ cluster_key) = Some t →
  obs a !! cluster_key = Some col →
  uns a !! (cluster_key +:+ "_colors") = None →
  call (plot_ripley_k cluster_key VNone) a =
    (Raised (mkExn KeyError (cluster_key +:+ "_colors")),
     mkWorld a
       [UnsGet ("ripley_k_" +:+ cluster_key); ObsGet cluster_key;
        UnsGet (cluster_key +:+ "_colors")] []).
Proof. apply ripley_colors_absent. Qed.

Lemma ripley_missing_palette_raises_witness :
  call (plot_ripley_k "leiden" VNone) adata_without_colors =
    (Raised (mkExn KeyError "leiden_colors"),
     mkWorld adata_without_colors
       [UnsGet "ripley_k_leiden"; ObsGet "leiden"; UnsGet "leiden_colors"]
       []).
Proof.
  apply (ripley_missing_palette_raises adata_without_colors "leiden"
           (VFrame ripley_table) ["1"; "0"; "1"]); reflexivity.
Defined.

(** ** The two modes of plot_ripley_k *)

(** C4. With a table passed, [plot_ripley_k] reads nothing from the container
    (the log of accesses stays empty), returns, and draws the line plot of
    that table with [hue_order] and [palette] both [None]. *)
Theorem ripley_explicit_table_bypasses_lookups a cluster_key df :
  df ≠ VNone →
  call (plot_ripley_k cluster_key df) a =
    (Returned (),
     mkWorld a []
       [PltFigure; FigAddSubplot 111;
        SnsLineplot "distance" "ripley_k" "leiden" None df None]).
Proof. apply ripley_explicit. Qed.

Lemma ripley_explicit_table_bypasses_lookups_witness :
  call (plot_ripley_k "leiden" (VFrame ripley_table)) (mkAnnData ∅ ∅) =
    (Returned (),
     mkWorld (mkAnnData ∅ ∅) []
       [PltFigure; FigAddSubplot 111;
        SnsLineplot "distance" "ripley_k" "leiden" None
          (VFrame ripley_table) None]).
Proof.
  apply (ripley_explicit_table_bypasses_lookups (mkAnnData ∅ ∅) "leiden"
           (VFrame ripley_table)).
  discriminate.
Defined.

(** C5. Without a table, the first access is [adata.uns["ripley_k_" +
    cluster_key]]; when it, the label column [adata.obs[cluster_key]] and the
    colour list [adata.uns[cluster_key + "_colors"]] are there, the plot gets
    the stored table, the sorted distinct labels of the column as
    [hue_order], and the stored colours as [palette]. *)
Theorem ripley_derived_order_and_palette a cluster_key t col palette :
  uns a !! ("ripley_k_" +:+ cluster_key) = Some t →
  obs a !! cluster_key = Some col →
  uns a !! (cluster_key +:+ "_colors") = Some (VSeq palette) →
  let hue_order := np_sort (unique col) in
  call (plot_ripley_k cluster_key VNone) a =
    (Returned (),
     mkWorld a
       [UnsGet ("ripley_k_" +:+ cluster_key); ObsGet cluster_key;
        UnsGet (cluster_key +:+ "_colors")]
       [PltFigure; FigAddSubplot 111;
        SnsLineplot "distance" "ripley_k" "leiden"
          (Some hue_order) t (Some palette)]) ∧
  StronglySorted label_le hue_order ∧
  NoDup hue_order ∧
  (∀ x, x ∈ hue_order ↔ x ∈ col).
Proof.
  intros Ht Hcol Hcolors hue_order. split.
  - by apply (ripley_derived a cluster_key t col (VSeq palette)).
  - apply sorted_unique_spec.
Qed.

Lemma ripley_derived_order_and_palette_witness :
  call (plot_ripley_k "leiden" VNone) adata_with_colors =
    (Returned (),
     mkWorld adata_with_colors
       [UnsGet "ripley_k_leiden"; ObsGet "leiden"; UnsGet "leiden_colors"]
       [PltFigure; FigAddSubplot 111;
        SnsLineplot "distance" "ripley_k" "leiden"
          (Some ["0"; "1"]) (VFrame ripley_table)
          (Some [VStr "#1f77b4"; VStr "#ff7f0e"])]) ∧
  StronglySorted label_le ["0"; "1"] ∧
  NoDup ["0"; "1"] ∧
  (∀ x, x ∈ ["0"; "1"] ↔ x ∈ ["1"; "0"; "1"]).
Proof.
  apply (ripley_derived_order_and_palette adata_with_colors "leiden"
           (VFrame ripley_table) ["1"; "0"; "1"]
           [VStr "#1f77b4"; VStr "#ff7f0e"]); reflexivity.
Defined.

Lemma lineplot_calls_explicit a cluster_key df :
  df ≠ VNone →
  lineplot_calls (drawn (call (plot_ripley_k cluster_key df) a).2) =
    [SnsLineplot "distance" "ripley_k" "leiden" None df None].
Proof. intros H. by rewrite ripley_explicit. Qed.

Lemma lineplot_calls_derived a cluster_key t col colors palette :
  uns a !! ("ripley_k_" +:+ cluster_key) = Some t →
  obs a !! cluster_key = Some col →
  uns a !! (cluster_key +:+ "_colors") = Some colors →
  iter_items colors = Some palette →
  lineplot_calls (drawn (call (plot_ripley_k cluster_key VNone) a).2) =
    [SnsLineplot "distance" "ripley_k" "leiden"
       (Some (np_sort (unique col))) t (Some palette)].
Proof. intros. by erewrite ripley_derived. Qed.

(** C8. With a table passed, and with a table stored together with the label
    column and the colours, [plot_ripley_k] makes exactly one call of
    [sns.lineplot], on that table and with the columns ["distance"],
    ["ripley_k"] and ["leiden"] whatever [cluster_key] is.  With a table
    stored and the colours missing it makes none: the table is found, and
    the [KeyError] of the colour lookup ends the call before the plot. *)
Theorem ripley_lineplot_missing_without_palette a cluster_key t col :
  uns a !! ("ripley_k_" +:+ cluster_key) = Some t →
  obs a !! cluster_key = Some col →
  uns a !! (cluster_key +:+ "_colors") = None →
  lineplot_calls (drawn (call (plot_ripley_k cluster_key VNone) a).2) = [] ∧
  (∀ df, df ≠ VNone →
     lineplot_calls (drawn (call (plot_ripley_k cluster_key df) a).2) =
       [SnsLineplot "distance" "ripley_k" "leiden" None df None]) ∧
  (∀ a' colors palette,
     uns a' !! ("ripley_k_" +:+ cluster_key) = Some t →
     obs a' !! cluster_key = Some col →
     uns a' !! (cluster_key +:+ "_colors") = Some colors →
     iter_items colors = Some palette →
     lineplot_calls (drawn (call (plot_ripley_k cluster_key VNone) a').2) =
       [SnsLineplot "distance" "ripley_k" "leiden"
          (Some (np_sort (unique col))) t (Some palette)]).
Proof.
  intros Ht Hcol Hcolors. split; [|split].
  - by erewrite ripley_colors_absent.
  - intros df Hdf. by apply lineplot_calls_explicit.
  - intros a' colors palette. apply lineplot_calls_derived.
Qed.

Lemma ripley_lineplot_missing_without_palette_witness :
  lineplot_calls
    (drawn (call (plot_ripley_k "leiden" VNone) adata_without_colors).2) = [] ∧
  lineplot_calls
    (drawn (call (plot_ripley_k "leiden" (VFrame ripley_table))
              adata_without_colors).2) =
    [SnsLineplot "distance" "ripley_k" "leiden" None (VFrame ripley_table)
       None] ∧
  lineplot_calls
    (drawn (call (plot_ripley_k "leiden" VNone) adata_with_colors).2) =
    [SnsLineplot "distance" "ripley_k" "leiden" (Some ["0"; "1"])
       (VFrame ripley_table) (Some [VStr "#1f77b4"; VStr "#ff7f0e"])].
Proof.
  pose proof (ripley_lineplot_missing_without_palette adata_without_colors
                "leiden" (VFrame ripley_table) ["1"; "0"; "1"]
                eq_refl eq_refl eq_refl) as (Hnone & Hexplicit & Hderived).
  split; [exact Hnone|]. split.
  - apply Hexplicit. discriminate.
  - apply (Hderived adata_with_colors
             (VSeq [VStr "#1f77b4"; VStr "#ff7f0e"])); reflexivity.
Defined.

(** ** plot_cluster_centrality_scores *)

(** C6. For a stored table, the call returns after drawing four panels of a
    one-row, four-column grid, in the order degree, clustering, closeness,
    betweenness.  Each panel is a horizontal strip plot of the renamed table
    with the rows on the ["cluster"] axis; the second to fourth panels clear
    the axis label and hide the tick labels on the left, the first does
    neither.  The renamed table has the rows and cells of the stored one, and
    its four metric columns carry the two-line labels. *)
Theorem centrality_scores_four_panels a key d :
  uns a !! key = Some (VFrame d) →
  let d' := rename_columns centrality_rename d in
  let panel i value rest :=
    [ PltSubplot 1 4 i;
      SnsStripplot d' "cluster" value 10 "h" 1;
      SpineSetVisible "right" false;
      SpineSetVisible "top" false;
      SpineSetVisible "bottom" false;
      SpineSetVisible "left" false;
      YaxisGrid true;
      TickParams [("bottom", false); ("left", false);
                  ("right", false); ("top", false)] ] ++ rest in
  let suppress := [PltYlabel None; TickParams [("labelleft", false)]] in
  call (plot_cluster_centrality_scores key) a =
    (Returned (),
     mkWorld a [UnsKeys; UnsGet key]
       (panel 1%Z ("degree" +:+ LF +:+ "centrality") [] ++
        panel 2%Z ("clustering" +:+ LF +:+ "coefficient") suppress ++
        panel 3%Z ("closeness" +:+ LF +:+ "centrality") suppress ++
        panel 4%Z ("betweenness" +:+ LF +:+ "centrality") suppress)) ∧
  df_index d' = df_index d ∧
  (df_columns d').*2 = (df_columns d).*2 ∧
  (df_columns d').*1 = rename_label centrality_rename <$> (df_columns d).*1 ∧
  rename_label centrality_rename "degree centrality"
    = "degree" +:+ LF +:+ "centrality" ∧
  rename_label centrality_rename "clustering coefficient"
    = "clustering" +:+ LF +:+ "coefficient" ∧
  rename_label centrality_rename "closeness centrality"
    = "closeness" +:+ LF +:+ "centrality" ∧
  rename_label centrality_rename "betweenness centrality"
    = "betweenness" +:+ LF +:+ "centrality" ∧
  (∀ name, name ∉ centrality_rename.*1 →
           rename_label centrality_rename name = name).
Proof.
  intros H d' panel suppress. split.
  - unfold plot_cluster_centrality_scores. py_unfold.
    rewrite (in_uns_keys_present _ _ _ H); simpl. by rewrite H.
  - destruct (rename_columns_shape centrality_rename d) as (? & ? & ?).
    repeat split; try done. apply rename_label_other.
Qed.

Lemma centrality_scores_four_panels_witness :
  (call (plot_cluster_centrality_scores "cluster_centrality_scores")
     adata_centrality).1 = Returned () ∧
  (df_columns (rename_columns centrality_rename centrality_table)).*1 =
    [ "cluster";
      "degree" +:+ LF +:+ "centrality";
      "clustering" +:+ LF +:+ "coefficient";
      "closeness" +:+ LF +:+ "centrality";
      "betweenness" +:+ LF +:+ "centrality" ].
Proof.
  pose proof (centrality_scores_four_panels adata_centrality
                "cluster_centrality_scores" centrality_table eq_refl)
    as (Hcall & _ & _ & Hnames & _).
  split.
  - by rewrite Hcall.
  - rewrite Hnames. reflexivity.
Defined.

(** ** plot_cluster_interactions *)

(** C7. For a stored pair of an M×M array and M labels, the call returns
    after drawing one figure with the array as a matrix image and a colour
    bar, and it sets on both axes the tick positions 0 .. M-1 with the labels
    in the stored order. *)
Theorem cluster_interactions_heatmap_ticks a key rows labels M :
  uns a !! key = Some (VSeq [VArray2 rows; VSeq labels]) →
  length rows = M →
  Forall (λ row, length row = M) rows →
  length labels = M →
  call (plot_cluster_interactions key) a =
    (Returned (),
     mkWorld a [UnsKeys; UnsGet key]
       [PltFigure; FigAddSubplot 111; AxMatshow (VArray2 rows); FigColorbar;
        PltXticks (seq 0 M) (VSeq labels) "small";
        PltYticks (seq 0 M) (VSeq labels) "small"]) ∧
  length (seq 0 M) = M ∧
  (∀ i label, labels !! i = Some label → seq 0 M !! i = Some i).
Proof.
  intros H _ _ Hlabels. split; [|split].
  - rewrite (interactions_pair a key (VArray2 rows) labels H).
    by rewrite Hlabels.
  - apply length_seq.
  - intros i label Hi. apply lookup_seq. split; [done|].
    rewrite <- Hlabels. by eapply lookup_lt_Some.
Qed.

Lemma cluster_interactions_heatmap_ticks_witness :
  call (plot_cluster_interactions "cluster_interactions") adata_interactions =
    (Returned (),
     mkWorld adata_interactions [UnsKeys; UnsGet "cluster_interactions"]
       [PltFigure; FigAddSubplot 111;
        AxMatshow (VArray2 [[4; 1]; [1; 6]]%Z); FigColorbar;
        PltXticks [0; 1] (VSeq [VStr "0"; VStr "1"]) "small";
        PltYticks [0; 1] (VSeq [VStr "0"; VStr "1"]) "small"]) ∧
  length (seq 0 2) = 2 ∧
  (∀ i label, [VStr "0"; VStr "1"] !! i = Some label →
              seq 0 2 !! i = Some i).
Proof.
  apply (cluster_interactions_heatmap_ticks adata_interactions
           "cluster_interactions" [[4; 1]; [1; 6]]%Z
           [VStr "0"; VStr "1"] 2).
  - reflexivity.
  - reflexivity.
  - repeat constructor.
  - reflexivity.
Defined.

(** C10. The array of a stored pair is handed to [matshow] as it is and
    never compared with the labels: whatever it is, the call returns and
    both axes get as many ticks as there are labels. *)
Theorem cluster_interactions_no_shape_validation a key m labels :
  uns a !! key = Some (VSeq [m; VSeq labels]) →
  call (plot_cluster_interactions key) a =
    (Returned (),
     mkWorld a [UnsKeys; UnsGet key]
       [PltFigure; FigAddSubplot 111; AxMatshow m; FigColorbar;
        PltXticks (seq 0 (length labels)) (VSeq labels) "small";
        PltYticks (seq 0 (length labels)) (VSeq labels) "small"]).
Proof. apply interactions_pair. Qed.

Lemma cluster_interactions_no_shape_validation_witness :
  call (plot_cluster_interactions "cluster_interactions") adata_mismatched =
    (Returned (),
     mkWorld adata_mismatched [UnsKeys; UnsGet "cluster_interactions"]
       [PltFigure; FigAddSubplot 111;
        AxMatshow (VArray2 [[4; 1; 0]; [1; 6; 2]]%Z); FigColorbar;
        PltXticks [0] (VSeq [VStr "0"]) "small";
        PltYticks [0] (VSeq [VStr "0"]) "small"]).
Proof.
  apply (cluster_interactions_no_shape_validation adata_mismatched
           "cluster_interactions" (VArray2 [[4; 1; 0]; [1; 6; 2]]%Z)
           [VStr "0"]).
  reflexivity.
Defined.

(** ** The container is read-only *)

(** C9. From any world, each of the three functions leaves the container as
    it found it, whether it returns or raises; the table stored under the
    centrality key is the one that was stored, since [rename] builds a new
    frame for the plots. *)
Theorem container_is_read_only w key cluster_key df :
  adata (plot_cluster_centrality_scores key w).2 = adata w ∧
  adata (plot_cluster_interactions key w).2 = adata w ∧
  adata (plot_ripley_k cluster_key df w).2 = adata w ∧
  uns (adata (plot_cluster_centrality_scores key w).2) !! key
    = uns (adata w) !! key.
Proof.
  pose proof (keeps_adata_centrality key w) as Hc.
  repeat split.
  - exact Hc.
  - apply keeps_adata_interactions.
  - apply keeps_adata_ripley.
  - by rewrite Hc.
Qed.

(** * Further properties *)

(** ** plot_ripley_k: the lookups before the figure *)

(** X3. The statement of [plot_ripley_k] that selects the table, which runs
    before any plotting call, raises only when no table was passed, and then
    only the [KeyError] of one of its three lookups or the [TypeError] of
    iterating over the stored colours: the [Warning] and the [ValueError]
    written in its two handlers are never raised. *)
Theorem ripley_source_raises_only_lookup_errors a cluster_key df e w :
  call (ripley_source cluster_key df) a = (Raised e, w) →
  df = VNone ∧
  (e = mkExn KeyError ("ripley_k_" +:+ cluster_key) ∨
   e = mkExn KeyError cluster_key ∨
   e = mkExn KeyError (cluster_key +:+ "_colors") ∨
   exn_cls e = TypeError) ∧
  e ≠ mkExn Warning (no_color_palette cluster_key) ∧
  e ≠ mkExn ValueError (ripley_not_used cluster_key).
Proof.
  intros H. apply source_raised in H as (Hdf & H). split; [done|].
  destruct H as [[-> _]|[[-> _]|[[-> _]|[-> _]]]]; repeat split; auto.
Qed.

Lemma ripley_source_raises_only_lookup_errors_witness :
  VNone = VNone ∧
  (mkExn KeyError "leiden_colors" = mkExn KeyError "ripley_k_leiden" ∨
   mkExn KeyError "leiden_colors" = mkExn KeyError "leiden" ∨
   mkExn KeyError "leiden_colors" = mkExn KeyError "leiden_colors" ∨
   exn_cls (mkExn KeyError "leiden_colors") = TypeError) ∧
  mkExn KeyError "leiden_colors" ≠ mkExn Warning (no_color_palette "leiden") ∧
  mkExn KeyError "leiden_colors" ≠ mkExn ValueError (ripley_not_used "leiden").
Proof.
  apply (ripley_source_raises_only_lookup_errors adata_without_colors
           "leiden" VNone (mkExn KeyError "leiden_colors")
           (mkWorld adata_without_colors
              [UnsGet "ripley_k_leiden"; ObsGet "leiden";
               UnsGet "leiden_colors"] [])).
  reflexivity.
Defined.

(** X4. Without a table, [plot_ripley_k] gets as far as its first plotting
    call, [plt.figure()], exactly when the container holds a value under the
    derived key, the label column, and an iterable value under the colour
    key. *)
Theorem ripley_derived_figure_iff a cluster_key :
  head (drawn (call (plot_ripley_k cluster_key VNone) a).2) = Some PltFigure ↔
  ∃ t col colors palette,
    uns a !! ("ripley_k_" +:+ cluster_key) = Some t ∧
    obs a !! cluster_key = Some col ∧
    uns a !! (cluster_key +:+ "_colors") = Some colors ∧
    iter_items colors = Some palette.
Proof.
  split.
  - destruct (uns a !! ("ripley_k_" +:+ cluster_key)) as [t|] eqn:Ht.
    2: { by rewrite ripley_key_absent. }
    destruct (obs a !! cluster_key) as [col|] eqn:Hcol.
    2: { by erewrite ripley_obs_absent. }
    destruct (uns a !! (cluster_key +:+ "_colors")) as [colors|] eqn:Hcolors.
    2: { by erewrite ripley_colors_absent. }
    destruct (iter_items colors) as [palette|] eqn:Hpal.
    + intros _. by exists t, col, colors, palette.
    + by erewrite ripley_colors_not_iterable.
  - intros (t & col & colors & palette & Ht & Hcol & Hcolors & Hpal).
    by erewrite ripley_derived.
Qed.

(** X5. The label column is looked up before the palette: with the derived
    key present and no column [cluster_key] in [adata.obs], the call raises
    [KeyError] for [cluster_key] after two accesses, whether or not the
    colours are stored, and draws nothing. *)
Theorem ripley_missing_label_column a cluster_key t :
  uns a !! ("ripley_k_" +:+ cluster_key) = Some t →
  obs a !! cluster_key = None →
  call (plot_ripley_k cluster_key VNone) a =
    (Raised (mkExn KeyError cluster_key),
     mkWorld a [UnsGet ("ripley_k_" +:+ cluster_key); ObsGet cluster_key] []).
Proof. apply ripley_obs_absent. Qed.

Lemma ripley_missing_label_column_witness :
  call (plot_ripley_k "louvain" VNone) adata_other_key =
    (Raised (mkExn KeyError "louvain"),
     mkWorld adata_other_key [UnsGet "ripley_k_louvain"; ObsGet "louvain"] []).
Proof.
  apply (ripley_missing_label_column adata_other_key "louvain"
           (VFrame ripley_table)); reflexivity.
Defined.

(** ** plot_cluster_centrality_scores: what is checked before the panels *)

Lemma centrality_frame_first_call a key d :
  uns a !! key = Some (VFrame d) →
  head (drawn (call (plot_cluster_centrality_scores key) a).2)
    = Some (PltSubplot 1 4 1).
Proof.
  intros H. unfold plot_cluster_centrality_scores. py_unfold.
  rewrite (in_uns_keys_present _ _ _ H); simpl. by rewrite H.
Qed.

(** X6. [plot_cluster_centrality_scores] gets as far as its first plotting
    call, [plt.subplot(1, 4, 1)], exactly when a frame is stored under the
    key.  A stored value that is not a frame passes the key check and then
    raises the [AttributeError] of [rename], after the two accesses and
    before any plotting call. *)
Theorem centrality_panels_iff_frame a key :
  (head (drawn (call (plot_cluster_centrality_scores key) a).2)
     = Some (PltSubplot 1 4 1) ↔
   ∃ d, uns a !! key = Some (VFrame d)) ∧
  (∀ v, uns a !! key = Some v → (∀ d, v ≠ VFrame d) →
        call (plot_cluster_centrality_scores key) a =
          (Raised (mkExn AttributeError "object has no attribute 'rename'"),
           mkWorld a [UnsKeys; UnsGet key] [])).
Proof.
  split; [|apply centrality_not_frame].
  destruct (uns a !! key) as [v|] eqn:H.
  - assert ((∃ d, v = VFrame d) ∨ ∀ d, v ≠ VFrame d) as [[d ->]|Hv]
      by (destruct v; eauto).
    + rewrite (centrality_frame_first_call a key d H). split; eauto.
    + rewrite (centrality_not_frame a key v H Hv); simpl.
      split; [done|]. intros [d [= ->]]. by destruct (Hv d).
  - rewrite (centrality_key_absent a key H); simpl.
    split; [done|]. by intros [d ?].
Qed.

(** ** plot_cluster_interactions: the figure comes first *)

(** X7. Once the key is found, [plot_cluster_interactions] opens the figure
    and its axes before it looks into the stored value: whatever that value
    is, also when the call then raises, the plotting calls start with
    [plt.figure()] and [fig.add_subplot(111)]. *)
Theorem interactions_figure_before_inspection a key v :
  uns a !! key = Some v →
  ∃ rest,
    drawn (call (plot_cluster_interactions key) a).2 =
      PltFigure :: FigAddSubplot 111 :: rest.
Proof.
  intros H. unfold plot_cluster_interactions. py_unfold.
  rewrite (in_uns_keys_present _ _ _ H); simpl. rewrite H.
  unfold py_getitem, py_len, mret, py_ret, raise.
  repeat (simpl; case_match; simplify_eq); simpl; eauto.
Qed.

Lemma interactions_figure_before_inspection_witness :
  ∃ rest,
    drawn (call (plot_cluster_interactions "cluster_interactions")
             adata_matrix_only).2 =
      PltFigure :: FigAddSubplot 111 :: rest.
Proof.
  apply (interactions_figure_before_inspection adata_matrix_only
           "cluster_interactions" (VSeq [VArray2 [[4; 1]; [1; 6]]%Z])).
  reflexivity.
Defined.

(** X8. A stored sequence with the matrix but no labels: the matrix image
    and the colour bar are drawn, then indexing the labels raises
    [IndexError]; the figure is left without ticks. *)
Theorem interactions_labels_missing a key m :
  uns a !! key = Some (VSeq [m]) →
  call (plot_cluster_interactions key) a =
    (Raised index_error,
     mkWorld a [UnsKeys; UnsGet key]
       [PltFigure; FigAddSubplot 111; AxMatshow m; FigColorbar]).
Proof.
  intros H. unfold plot_cluster_interactions. py_unfold.
  rewrite (in_uns_keys_present _ _ _ H); simpl. by rewrite H.
Qed.

Lemma interactions_labels_missing_witness :
  call (plot_cluster_interactions "cluster_interactions") adata_matrix_only =
    (Raised index_error,
     mkWorld adata_matrix_only [UnsKeys; UnsGet "cluster_interactions"]
       [PltFigure; FigAddSubplot 111;
        AxMatshow (VArray2 [[4; 1]; [1; 6]]%Z); FigColorbar]).
Proof.
  apply (interactions_labels_missing adata_matrix_only
           "cluster_interactions" (VArray2 [[4; 1]; [1; 6]]%Z)).
  reflexivity.
Defined.

(** X9. Only the first two items of the stored sequence are used, and the
    labels may be any value with a length (a list, a numpy array, a string):
    the ticks are [range(len(labels))] and the labels are passed on as
    stored. *)
Theorem interactions_any_sized_labels a key m labels rest n :
  uns a !! key = Some (VSeq (m :: labels :: rest)) →
  (∀ w, py_len labels w = (Returned n, w)) →
  call (plot_cluster_interactions key) a =
    (Returned (),
     mkWorld a [UnsKeys; UnsGet key]
       [PltFigure; FigAddSubplot 111; AxMatshow m; FigColorbar;
        PltXticks (seq 0 n) labels "small";
        PltYticks (seq 0 n) labels "small"]).
Proof.
  intros H Hlen. unfold plot_cluster_interactions. py_unfold.
  rewrite (in_uns_keys_present _ _ _ H); simpl. rewrite H.
  unfold py_getitem, mret, py_ret; simpl.
  rewrite Hlen; simpl. by rewrite Hlen.
Qed.

Lemma interactions_any_sized_labels_witness :
  call (plot_cluster_interactions "cluster_interactions") adata_array_labels =
    (Returned (),
     mkWorld adata_array_labels [UnsKeys; UnsGet "cluster_interactions"]
       [PltFigure; FigAddSubplot 111;
        AxMatshow (VArray2 [[4; 1]; [1; 6]]%Z); FigColorbar;
        PltXticks [0; 1] (VArray1 [7; 9]%Z) "small";
        PltYticks [0; 1] (VArray1 [7; 9]%Z) "small"]).
Proof.
  apply (interactions_any_sized_labels adata_array_labels
           "cluster_interactions" (VArray2 [[4; 1]; [1; 6]]%Z)
           (VArray1 [7; 9]%Z) [VStr "note"] 2).
  - reflexivity.
  - intros w. reflexivity.
Defined.

(** ** The display order of plot_ripley_k *)

Lemma hue_order_of_label_set col1 col2 :
  (∀ x, x ∈ col1 ↔ x ∈ col2) →
  np_sort (unique col1) = np_sort (unique col2).
Proof.
  intros Hsame.
  apply (StronglySorted_unique label_le); try apply np_sort_ascending.
  rewrite !np_sort_Permutation.
  apply NoDup_Permutation; try apply NoDup_unique.
  intros x. by rewrite !elem_of_unique.
Qed.

(** X10. The plot of [plot_ripley_k] depends on the label column only
    through the set of labels that occur in it: two containers with the same
    [uns] whose columns [cluster_key] hold the same labels, in any order and
    any number of times, give the same outcome and the same plotting calls. *)
Theorem ripley_order_ignores_observation_order u o1 o2 cluster_key col1 col2 :
  o1 !! cluster_key = Some col1 →
  o2 !! cluster_key = Some col2 →
  (∀ x, x ∈ col1 ↔ x ∈ col2) →
  (call (plot_ripley_k cluster_key VNone) (mkAnnData u o1)).1 =
    (call (plot_ripley_k cluster_key VNone) (mkAnnData u o2)).1 ∧
  drawn (call (plot_ripley_k cluster_key VNone) (mkAnnData u o1)).2 =
    drawn (call (plot_ripley_k cluster_key VNone) (mkAnnData u o2)).2.
Proof.
  intros H1 H2 Hsame.
  destruct (u !! ("ripley_k_" +:+ cluster_key)) as [t|] eqn:Ht.
  2: { by rewrite !ripley_key_absent. }
  destruct (u !! (cluster_key +:+ "_colors")) as [colors|] eqn:Hcolors.
  2: { by rewrite (ripley_colors_absent (mkAnnData u o1) cluster_key t col1),
         (ripley_colors_absent (mkAnnData u o2) cluster_key t col2). }
  destruct (iter_items colors) as [palette|] eqn:Hpal.
  - rewrite (ripley_derived (mkAnnData u o1) cluster_key t col1 colors palette),
      (ripley_derived (mkAnnData u o2) cluster_key t col2 colors palette)
      by done.
    simpl. by rewrite (hue_order_of_label_set col1 col2 Hsame).
  - by rewrite
      (ripley_colors_not_iterable (mkAnnData u o1) cluster_key t col1 colors),
      (ripley_colors_not_iterable (mkAnnData u o2) cluster_key t col2 colors).
Qed.

Lemma ripley_order_ignores_observation_order_witness :
  (call (plot_ripley_k "leiden" VNone) adata_with_colors).1 =
    (call (plot_ripley_k "leiden" VNone)
       (mkAnnData (uns adata_with_colors) {[ "leiden" := ["0"; "1"] ]})).1 ∧
  drawn (call (plot_ripley_k "leiden" VNone) adata_with_colors).2 =
    drawn (call (plot_ripley_k "leiden" VNone)
             (mkAnnData (uns adata_with_colors)
                {[ "leiden" := ["0"; "1"] ]})).2.
Proof.
  apply (ripley_order_ignores_observation_order (uns adata_with_colors)
           (obs adata_with_colors) {[ "leiden" := ["0"; "1"] ]} "leiden"
           ["1"; "0"; "1"] ["0"; "1"]).
  - reflexivity.
  - reflexivity.
  - intros x. rewrite !elem_of_cons, !elem_of_nil. tauto.
Defined.

(** ** What the two keyed plots depend on *)

(** X11. [plot_cluster_centrality_scores] and [plot_cluster_interactions]
    depend on the container only through the entry of [adata.uns] under
    their key: on two containers that agree there, whatever else they hold
    in [uns] and [obs], each gives the same outcome, the same accesses and
    the same plotting calls. *)
Theorem keyed_plots_depend_only_on_their_entry a1 a2 key :
  uns a1 !! key = uns a2 !! key →
  let same (f : py unit) :=
    (call f a1).1 = (call f a2).1 ∧
    reads (call f a1).2 = reads (call f a2).2 ∧
    drawn (call f a1).2 = drawn (call f a2).2 in
  same (plot_cluster_centrality_scores key) ∧
  same (plot_cluster_interactions key).
Proof.
  intros H same. subst same; simpl.
  destruct (uns a2 !! key) as [v|] eqn:H2.
  2: { by rewrite !centrality_key_absent, !interactions_key_absent. }
  split.
  - unfold plot_cluster_centrality_scores. py_unfold.
    rewrite (in_uns_keys_present _ _ _ H), (in_uns_keys_present _ _ _ H2).
    simpl. rewrite H, H2. by destruct v.
  - unfold plot_cluster_interactions. py_unfold.
    rewrite (in_uns_keys_present _ _ _ H), (in_uns_keys_present _ _ _ H2).
    simpl. rewrite H, H2.
    unfold py_getitem, py_len, mret, py_ret, raise.
    repeat (simpl; case_match; simplify_eq); simpl; done.
Qed.

Lemma keyed_plots_depend_only_on_their_entry_witness :
  ((call (plot_cluster_centrality_scores "cluster_interactions")
      adata_interactions).1 =
     (call (plot_cluster_centrality_scores "cluster_interactions")
        adata_interactions_crowded).1 ∧
   reads (call (plot_cluster_centrality_scores "cluster_interactions")
            adata_interactions).2 =
     reads (call (plot_cluster_centrality_scores "cluster_interactions")
              adata_interactions_crowded).2 ∧
   drawn (call (plot_cluster_centrality_scores "cluster_interactions")
            adata_interactions).2 =
     drawn (call (plot_cluster_centrality_scores "cluster_interactions")
              adata_interactions_crowded).2) ∧
  ((call (plot_cluster_interactions "cluster_interactions")
      adata_interactions).1 =
     (call (plot_cluster_interactions "cluster_interactions")
        adata_interactions_crowded).1 ∧
   reads (call (plot_cluster_interactions "cluster_interactions")
            adata_interactions).2 =
     reads (call (plot_cluster_interactions "cluster_interactions")
              adata_interactions_crowded).2 ∧
   drawn (call (plot_cluster_interactions "cluster_interactions")
            adata_interactions).2 =
     drawn (call (plot_cluster_interactions "cluster_interactions")
              adata_interactions_crowded).2).
Proof.
  apply (keyed_plots_depend_only_on_their_entry adata_interactions
           adata_interactions_crowded "cluster_interactions").
  reflexivity.
Defined.

(** ** The columns after rename *)

Lemma centrality_rename_label_eq k v name :
  (k, v) ∈ centrality_rename →
  rename_label centrality_rename name = v ↔ name = k ∨ name = v.
Proof.
  intros H. unfold centrality_rename in H.
  repeat (apply elem_of_cons in H as [[= -> ->]|H]);
    [..|by apply elem_of_nil in H];
    unfold rename_label, centrality_rename; simpl;
    repeat (case_decide; simpl; simplify_eq);
    (split; [intros ?|intros [?|?]]); simplify_eq; auto.
Qed.

(** X12. After the rename of [plot_cluster_centrality_scores], the frame has
    a column with a two-line display label exactly when the stored frame had
    the corresponding metric column or already had a column with that
    display label: the column a panel plots is there only in these cases. *)
Theorem centrality_display_column d k v :
  (k, v) ∈ centrality_rename →
  v ∈ (df_columns (rename_columns centrality_rename d)).*1 ↔
  k ∈ (df_columns d).*1 ∨ v ∈ (df_columns d).*1.
Proof.
  intros Hkv.
  destruct (rename_columns_shape centrality_rename d) as (_ & _ & ->).
  rewrite list_elem_of_fmap. split.
  - intros (name & Hv & Hin). symmetry in Hv.
    apply (centrality_rename_label_eq k v name Hkv) in Hv as [->| ->]; auto.
  - intros [Hin|Hin]; [exists k|exists v]; (split; [|done]); symmetry;
      apply (centrality_rename_label_eq k v _ Hkv); auto.
Qed.

Lemma centrality_display_column_witness :
  "degree" +:+ LF +:+ "centrality"
    ∈ (df_columns (rename_columns centrality_rename centrality_table)).*1 ↔
  "degree centrality" ∈ (df_columns centrality_table).*1 ∨
  "degree" +:+ LF +:+ "centrality" ∈ (df_columns centrality_table).*1.
Proof.
  apply (centrality_display_column centrality_table "degree centrality"
           ("degree" +:+ LF +:+ "centrality")).
  apply list_elem_of_here.
Defined.
